(** * kcpwd: the secret-access facade over the OS keychain

    A shallow embedding of [kcpwd/core.py] (and of the injection decorator
    of [kcpwd/decorators.py]) together with the properties of the
    secret-access contract.

    The Python functions talk to two things they do not implement: the
    [keyring] module (the OS credential store) and [subprocess] (the
    [pbcopy] helper).  A Python function is therefore embedded as a
    _program_: a finite tree whose nodes are the external calls the
    function makes, each of which may return a value or raise.  Running a
    program against an arbitrary handler of the external calls gives the
    function's result, the final state of the outside world and the list
    of external calls that were made. *)

From Stdlib.Strings Require Import String Ascii Byte.
From Stdlib Require Import NArith ZArith List.
From stdpp Require Import base option list strings gmap.

Local Open Scope N_scope.

(** ** Python data *)

(** A Python [str] is a sequence of Unicode code points; [bytes] is a
    sequence of bytes. *)
Abbreviation str := (list N).
Abbreviation bytes := (list byte).

(** The [str] denoted by an ASCII literal of the source. *)
Definition lit (s : string) : str :=
  map N_of_ascii (list_ascii_of_string s).

(** The values that travel through [*args] and [**kwargs]. *)
Inductive pyval : Type :=
| PyNone
| PyBool (b : bool)
| PyInt (z : Z)
| PyStr (s : str).

(** Python truthiness, as tested by [if v] and by [v and ...]. *)
Definition truthy (v : pyval) : bool :=
  match v with
  | PyNone => false
  | PyBool b => b
  | PyInt z => negb (Z.eqb z 0)
  | PyStr s => match s with [] => false | _ :: _ => true end
  end.

(** An instance of (a subclass of) Python's [Exception]: these are the
    exceptions an [except Exception] clause catches.  The interpreter's
    own signals that derive from [BaseException] only
    ([KeyboardInterrupt], [SystemExit], [GeneratorExit]) are not raised by
    the credential store or by the clipboard helper and are outside the
    model. *)
Record Exception : Type := mkException {
  exc_class : string;
  exc_msg : str
}.

Definition ValueError (msg : str) : Exception :=
  mkException "ValueError" msg.

Definition UnicodeEncodeError (msg : str) : Exception :=
  mkException "UnicodeEncodeError" msg.

(** The outcome of evaluating a Python expression: a value, or a raised
    exception. *)
Inductive result (A : Type) : Type :=
| Ok (a : A)
| Err (e : Exception).
Arguments Ok {A} a.
Arguments Err {A} e.

(** ** [str.encode('utf-8')] *)

Definition byte_of_N (n : N) : byte := byte_of_ascii (ascii_of_N n).

(** The UTF-8 encoding of one code point; [None] for a surrogate (and for
    a number that is no code point), which the strict codec refuses. *)
Definition utf8_encode_point (c : N) : option bytes :=
  if c <? 0x80 then
    Some [byte_of_N c]
  else if c <? 0x800 then
    Some [byte_of_N (N.lor 0xC0 (N.shiftr c 6));
          byte_of_N (N.lor 0x80 (N.land c 0x3F))]
  else if (0xD800 <=? c) && (c <=? 0xDFFF) then
    None
  else if c <? 0x10000 then
    Some [byte_of_N (N.lor 0xE0 (N.shiftr c 12));
          byte_of_N (N.lor 0x80 (N.land (N.shiftr c 6) 0x3F));
          byte_of_N (N.lor 0x80 (N.land c 0x3F))]
  else if c <? 0x110000 then
    Some [byte_of_N (N.lor 0xF0 (N.shiftr c 18));
          byte_of_N (N.lor 0x80 (N.land (N.shiftr c 12) 0x3F));
          byte_of_N (N.lor 0x80 (N.land (N.shiftr c 6) 0x3F));
          byte_of_N (N.lor 0x80 (N.land c 0x3F))]
  else
    None.

Fixpoint utf8_encode (text : str) : option bytes :=
  match text with
  | [] => Some []
  | c :: rest =>
      match utf8_encode_point c, utf8_encode rest with
      | Some b, Some bs => Some (b ++ bs)
      | _, _ => None
      end
  end.

(** [text.encode('utf-8')]: the bytes, or [UnicodeEncodeError]. *)
Definition str_encode_utf8 (text : str) : result bytes :=
  match utf8_encode text with
  | Some b => Ok b
  | None =>
      Err (UnicodeEncodeError
             (lit "'utf-8' codec can't encode character: surrogates not allowed"))
  end.

(** ** External calls *)

(** The calls [core.py] makes into [keyring] and [subprocess].  A process
    handle is the number the handler gave to the process. *)
Inductive call : Type :=
| keyring_set_password (service username password : str)
| keyring_get_password (service username : str)
| keyring_delete_password (service username : str)
| subprocess_Popen (args : list str) (stdin_pipe stdout_pipe : bool)
| Popen_communicate (process : nat) (input : bytes).

(** What each call returns when it returns: [keyring.get_password] an
    [Optional[str]], [Popen] a process, [communicate] the pair
    [(stdout_data, stderr_data)]. *)
Definition ret_type (c : call) : Type :=
  match c with
  | keyring_set_password _ _ _ => unit
  | keyring_get_password _ _ => option str
  | keyring_delete_password _ _ => unit
  | subprocess_Popen _ _ _ => nat
  | Popen_communicate _ _ => (option bytes * option bytes)%type
  end.

(** The calls that write to the credential store. *)
Definition mutates_store (c : call) : bool :=
  match c with
  | keyring_set_password _ _ _ | keyring_delete_password _ _ => true
  | _ => false
  end.

(** The call by which the clipboard helper is started. *)
Definition is_pbcopy (c : call) : bool :=
  match c with
  | subprocess_Popen args _ _ => bool_decide (args = [lit "pbcopy"])
  | _ => false
  end.

(** ** Programs *)

Inductive prog (A : Type) : Type :=
| Ret (a : A)
| Raise (e : Exception)
| Call (c : call) (k : result (ret_type c) → prog A).
Arguments Ret {A} a.
Arguments Raise {A} e.
Arguments Call {A} c k.

(** An external call in expression position: its value, or the exception
    it raised, propagating. *)
Definition invoke (c : call) : prog (ret_type c) :=
  Call c (λ r, match r with Ok x => Ret x | Err e => Raise e end).

(** A pure expression that can raise. *)
Definition lift {A} (r : result A) : prog A :=
  match r with Ok a => Ret a | Err e => Raise e end.

Fixpoint bind {A B} (p : prog A) (f : A → prog B) : prog B :=
  match p with
  | Ret a => f a
  | Raise e => Raise e
  | Call c k => Call c (λ r, bind (k r) f)
  end.

(** [try: p  except Exception as e: handler e]. *)
Fixpoint try_except {A} (p : prog A) (handler : Exception → prog A) : prog A :=
  match p with
  | Ret a => Ret a
  | Raise e => handler e
  | Call c k => Call c (λ r, try_except (k r) handler)
  end.

#[global] Instance prog_ret : MRet prog := @Ret.
#[global] Instance prog_bind : MBind prog := λ A B f p, bind p f.

(** ** Running a program *)

(** The outside world: a state and, for each call, its effect on the state
    and what it returns or raises. *)
Definition handler (S : Type) : Type :=
  ∀ c : call, S → result (ret_type c) * S.

Record outcome (S A : Type) : Type := mkOutcome {
  res : result A;
  final : S;
  trace : list call
}.
Arguments mkOutcome {S A} res final trace.
Arguments res {S A} o.
Arguments final {S A} o.
Arguments trace {S A} o.

(** The outcome [o] of a continuation, seen from before the call [c]. *)
Definition after {S A} (c : call) (o : outcome S A) : outcome S A :=
  mkOutcome (res o) (final o) (c :: trace o).

Fixpoint run {S A} (h : handler S) (p : prog A) (s : S) : outcome S A :=
  match p with
  | Ret a => mkOutcome (Ok a) s []
  | Raise e => mkOutcome (Err e) s []
  | Call c k => after c (run h (k (h c s).1) (h c s).2)
  end.

(** ** [kcpwd/core.py] *)

Definition SERVICE_NAME : str := lit "kcpwd".

Definition copy_to_clipboard (text : str) : prog bool :=
  try_except
    (process ← invoke (subprocess_Popen [lit "pbcopy"] true true);
     data ← lift (str_encode_utf8 text);
     _ ← invoke (Popen_communicate process data);
     Ret true)
    (λ _, Ret false).

Definition set_password (key password : str) : prog bool :=
  try_except
    (_ ← invoke (keyring_set_password SERVICE_NAME key password);
     Ret true)
    (λ _, Ret false).

(** [password and copy_to_clip] holds only for a [password] that is
    neither [None] nor empty; the [if not clipboard_success: pass] of the
    source does nothing in either case. *)
Definition get_password (key : str) (copy_to_clip : bool) : prog (option str) :=
  try_except
    (password ← invoke (keyring_get_password SERVICE_NAME key);
     _ ← match password with
         | Some text =>
             if truthy (PyStr text) && copy_to_clip then
               clipboard_success ← copy_to_clipboard text;
               if negb clipboard_success then Ret tt else Ret tt
             else Ret tt
         | None => Ret tt
         end;
     Ret password)
    (λ _, Ret None).

Definition delete_password (key : str) : prog bool :=
  try_except
    (password ← invoke (keyring_get_password SERVICE_NAME key);
     match password with
     | None => Ret false
     | Some _ =>
         _ ← invoke (keyring_delete_password SERVICE_NAME key);
         Ret true
     end)
    (λ _, Ret false).

(** ** A model of the host: keychain and clipboard

    The credential store of the host as [keyring] presents it: a finite
    map from (service, username) to the secret, with upsert on set and
    [PasswordDeleteError] on deleting what is not there; and the clipboard,
    set by a [pbcopy] process from its standard input.  [pbcopy_installed]
    says whether the helper can be started, [keychain_locked] whether the
    store refuses every request. *)

Record World : Type := mkWorld {
  keychain : gmap (str * str) str;
  clipboard : option bytes;
  pbcopy_installed : bool;
  keychain_locked : bool
}.

Definition with_keychain (w : World) (m : gmap (str * str) str) : World :=
  mkWorld m (clipboard w) (pbcopy_installed w) (keychain_locked w).

Definition with_clipboard (w : World) (b : bytes) : World :=
  mkWorld (keychain w) (Some b) (pbcopy_installed w) (keychain_locked w).

Definition KeyringLocked : Exception :=
  mkException "KeyringLocked" (lit "Failed to unlock the keyring").

Definition PasswordDeleteError : Exception :=
  mkException "PasswordDeleteError" (lit "Password not found").

Definition FileNotFoundError : Exception :=
  mkException "FileNotFoundError" (lit "No such file or directory: 'pbcopy'").

Definition macos : handler World :=
  λ c,
    match c as c0 return World → result (ret_type c0) * World with
    | keyring_set_password service username password => λ w,
        if keychain_locked w then (Err KeyringLocked, w)
        else (Ok tt, with_keychain w (<[(service, username) := password]> (keychain w)))
    | keyring_get_password service username => λ w,
        if keychain_locked w then (Err KeyringLocked, w)
        else (Ok (keychain w !! (service, username)), w)
    | keyring_delete_password service username => λ w,
        if keychain_locked w then (Err KeyringLocked, w)
        else
          match keychain w !! (service, username) with
          | Some _ => (Ok tt, with_keychain w (delete (service, username) (keychain w)))
          | None => (Err PasswordDeleteError, w)
          end
    | subprocess_Popen args _ _ => λ w,
        if bool_decide (args = [lit "pbcopy"]) && pbcopy_installed w
        then (Ok 1%nat, w)
        else (Err FileNotFoundError, w)
    | Popen_communicate _ input => λ w,
        (Ok (Some [], None), with_clipboard w input)
    end.

(** A host with an empty, unlocked keychain and a working clipboard. *)
Definition fresh : World := mkWorld ∅ None true false.

(** ** [kcpwd/decorators.py] *)

(** [needle in hay] for two [str]. *)
Definition contains (needle hay : str) : Prop :=
  ∃ pre post, hay = pre ++ needle ++ post.

(** A Python callable as the decorator sees it: positional arguments,
    keyword arguments, and a body that may itself make external calls. *)
Definition pyfunc : Type := list pyval → gmap str pyval → prog pyval.

Definition supplied (v : option pyval) : bool :=
  match v with
  | Some x => truthy x
  | None => false
  end.

Definition not_found_message (key : str) : str :=
  lit "Password not found for key '" ++ key ++ lit "'".

(** Modelled from the spec: [kcpwd/decorators.py], the module that defines
    [require_password], is not among the sources (only its import in
    [__init__.py] and its tests are).  The spec's contract of the
    injection decorator: inspect the keyword arguments for [param_name];
    if present and not empty or absent, call the inner function
    unchanged; otherwise call [get_password key] without clipboard copy
    and, if a value is found, inject it into the keyword arguments under
    [param_name] and call the inner function; if no value is found, fail
    before calling the inner function with an error ([ValueError] in the
    tests) whose message includes the key name. *)
Definition require_password (key param_name : str) (func : pyfunc) : pyfunc :=
  λ args kwargs,
    if supplied (kwargs !! param_name) then
      func args kwargs
    else
      password ← get_password key false;
      match password with
      | Some secret => func args (<[param_name := PyStr secret]> kwargs)
      | None => Raise (ValueError (not_found_message key))
      end.

(** ** Outcomes of composite programs *)

(** The outcome of [p] followed, when [p] returned, by [k]. *)
Definition and_then {S A B} (o : outcome S A) (k : A → S → outcome S B) : outcome S B :=
  match res o with
  | Ok a =>
      let o' := k a (final o) in
      mkOutcome (res o') (final o') (trace o ++ trace o')
  | Err e => mkOutcome (Err e) (final o) (trace o)
  end.

(** The outcome of [p] with the [except] clause [k] around it. *)
Definition or_else {S A} (o : outcome S A) (k : Exception → S → outcome S A) : outcome S A :=
  match res o with
  | Ok a => o
  | Err e =>
      let o' := k e (final o) in
      mkOutcome (res o') (final o') (trace o ++ trace o')
  end.


(** ** Auxiliary notions *)

Definition returned {A} (r : result A) : bool :=
  match r with
  | Ok _ => true
  | Err _ => false
  end.

Definition pbcopy_call : call := subprocess_Popen [lit "pbcopy"] true true.

(** ** The store as the facade assumes it *)

(** The semantics of the credential store that the facade relies on and
    does not implement: a secret that was set is the one a get then finds
    (set is an upsert), a secret that was deleted is not found any more,
    and a secret that a get finds can be deleted. *)
Class KeyringLaws {S : Type} (h : handler S) : Prop := {
  get_after_set service username password s :
    let c := keyring_set_password service username password in
    (h c s).1 = Ok tt →
    (h (keyring_get_password service username) (h c s).2).1 = Ok (Some password);
  get_after_delete service username s :
    let d := keyring_delete_password service username in
    (h d s).1 = Ok tt →
    (h (keyring_get_password service username) (h d s).2).1 = Ok None;
  delete_after_get service username secret s :
    let c := keyring_get_password service username in
    (h c s).1 = Ok (Some secret) →
    (h (keyring_delete_password service username) (h c s).2).1 = Ok tt
}.

(** [store s] is the content of the credential store in the state [s]:
    only the calls that write to the store change it. *)
Class StoreFrame {S T : Type} (h : handler S) (store : S → T) : Prop :=
  store_frame c s : mutates_store c = false → store (h c s).2 = store s.

(** ** Hosts and callables used as concrete inputs *)

Definition testkey : str := lit "testkey".

(** A host whose keychain holds [testkey] with the secret [secret]. *)
Definition host_with (secret : str) : World :=
  mkWorld {[ (SERVICE_NAME, testkey) := secret ]} None true false.

(** The same host with the keychain locked. *)
Definition host_locked (secret : str) : World :=
  mkWorld {[ (SERVICE_NAME, testkey) := secret ]} None true true.

(** The same host without the [pbcopy] helper. *)
Definition host_without_pbcopy (secret : str) : World :=
  mkWorld {[ (SERVICE_NAME, testkey) := secret ]} None false false.

(** [def test_function(password=None): return password] of the tests. *)
Definition test_function : pyfunc :=
  λ _ kwargs, Ret (default PyNone (kwargs !! lit "password")).

(** The end-to-end scenario: set, get, delete, get again, delete again. *)
Definition scenario : prog (bool * option str * bool * option str * bool) :=
  stored ← set_password (lit "dbadmin") (lit "asd123");
  found ← get_password (lit "dbadmin") false;
  deleted ← delete_password (lit "dbadmin");
  found_again ← get_password (lit "dbadmin") false;
  deleted_again ← delete_password (lit "dbadmin");
  Ret (stored, found, deleted, found_again, deleted_again).


(** ** [kcpwd/cli.py] *)

(** A line written by [click.echo message]: to standard output, or to
    standard error with [err=True]. *)
Record echo : Type := mkEcho {
  message : str;
  err : bool
}.

(** The commands print and return nothing: the model of a command returns
    the lines it echoed, in order.  The commands [set], [get] and
    [delete] of the source are named after the command line that runs
    them. *)
Definition stored_message (key : str) : str :=
  0x2713 :: lit " Password stored for '" ++ key ++ lit "'".

Definition copied_message (key : str) : str :=
  0x2713 :: lit " Password for '" ++ key ++ lit "' copied to clipboard".

Definition deleted_message (key : str) : str :=
  0x2713 :: lit " Password for '" ++ key ++ lit "' deleted".

Definition no_password_message (key : str) : str :=
  lit "No password found for '" ++ key ++ lit "'".

Definition cli_set (key password : str) : prog (list echo) :=
  stored ← set_password key password;
  if stored : bool then Ret [mkEcho (stored_message key) false]
  else Ret [mkEcho (lit "Error storing password") true].

Definition cli_get (key : str) : prog (list echo) :=
  password ← get_password key true;
  match password with
  | None => Ret [mkEcho (no_password_message key) true]
  | Some _ => Ret [mkEcho (copied_message key) false]
  end.

(** The body of [delete]; [click.confirmation_option] runs it once the
    user has confirmed. *)
Definition cli_delete (key : str) : prog (list echo) :=
  deleted ← delete_password key;
  if deleted : bool then Ret [mkEcho (deleted_message key) false]
  else Ret [mkEcho (no_password_message key) true].

(** ** Kinds of external calls *)

(** A [keyring] call on the record of [key] in the namespace of the
    application. *)
Definition keyring_on (key : str) (c : call) : bool :=
  match c with
  | keyring_set_password service username _
  | keyring_get_password service username
  | keyring_delete_password service username =>
      bool_decide (service = SERVICE_NAME ∧ username = key)
  | _ => false
  end.

Definition subprocess_call (c : call) : bool :=
  match c with
  | subprocess_Popen _ _ _ | Popen_communicate _ _ => true
  | _ => false
  end.

(** A code point that UTF-16 reserves for surrogates. *)
Definition surrogate (c : N) : bool := (0xD800 <=? c) && (c <=? 0xDFFF).

(** ** Tactics *)

Ltac simp := cbn -[copy_to_clipboard SERVICE_NAME lit truthy andb].

(** Case analysis on what the handler answers to the next call. *)
Ltac next_call h :=
  match goal with
  | |- context [h ?c ?s] =>
      let r := fresh "r" in
      let e := fresh "e" in
      let s' := fresh "s" in
      destruct (h c s) as [[r | e] s']; simp
  end.


(** * Properties *)

(** ** Running composite programs *)

Section Run.
Context {S : Type} (h : handler S).

Lemma run_bind {A B} (p : prog A) (f : A → prog B) (s : S) :
  run h (bind p f) s = and_then (run h p s) (λ a, run h (f a)).
Proof.
  revert s. induction p as [a | e | c k IH]; intros s.
  - unfold and_then. cbn. by destruct (run h (f a) s).
  - reflexivity.
  - cbn [bind run]. rewrite IH. cbn [run]. unfold and_then, after.
    by destruct (run h (k (h c s).1) (h c s).2) as [[a | e] s' tr].
Qed.

Lemma run_try_except {A} (p : prog A) (hd : Exception → prog A) (s : S) :
  run h (try_except p hd) s = or_else (run h p s) (λ e, run h (hd e)).
Proof.
  revert s. induction p as [a | e | c k IH]; intros s.
  - reflexivity.
  - unfold or_else. cbn. by destruct (run h (hd e) s).
  - cbn [try_except run]. rewrite IH. unfold or_else, after.
    by destruct (run h (k (h c s).1) (h c s).2) as [[a | e] s' tr].
Qed.

End Run.

(** ** What each function of [core.py] does, call by call *)

Section Facade.
Context {S : Type} (h : handler S).

Lemma run_set_password (key password : str) (s : S) :
  let c := keyring_set_password SERVICE_NAME key password in
  run h (set_password key password) s =
    mkOutcome (Ok (returned (h c s).1)) (h c s).2 [c].
Proof. simp. by next_call h. Qed.

Lemma run_copy_to_clipboard (text : str) (s : S) :
  run h (copy_to_clipboard text) s =
    match (h pbcopy_call s).1, str_encode_utf8 text with
    | Ok process, Ok data =>
        let c := Popen_communicate process data in
        let s1 := (h pbcopy_call s).2 in
        mkOutcome (Ok (returned (h c s1).1)) (h c s1).2 [pbcopy_call; c]
    | _, _ => mkOutcome (Ok false) (h pbcopy_call s).2 [pbcopy_call]
    end.
Proof.
  unfold copy_to_clipboard. fold pbcopy_call. simp.
  next_call h; [| done].
  destruct (str_encode_utf8 text) as [data | e]; simp; [| done].
  by next_call h.
Qed.

Lemma copy_to_clipboard_returns (text : str) (s : S) :
  ∃ b, res (run h (copy_to_clipboard text) s) = Ok b.
Proof.
  rewrite run_copy_to_clipboard.
  destruct (h pbcopy_call s).1, (str_encode_utf8 text); cbn; eauto.
Qed.

Lemma copy_to_clipboard_trace (text : str) (s : S) :
  ∃ rest, trace (run h (copy_to_clipboard text) s) = pbcopy_call :: rest
          ∧ Forall (λ c, mutates_store c = false) rest.
Proof.
  rewrite run_copy_to_clipboard.
  destruct (h pbcopy_call s).1, (str_encode_utf8 text); cbn; eauto.
Qed.

Lemma run_get_password (key : str) (copy_to_clip : bool) (s : S) :
  let c := keyring_get_password SERVICE_NAME key in
  run h (get_password key copy_to_clip) s =
    match (h c s).1 with
    | Ok (Some text) =>
        if truthy (PyStr text) && copy_to_clip then
          let oc := run h (copy_to_clipboard text) (h c s).2 in
          mkOutcome (Ok (Some text)) (final oc) (c :: trace oc)
        else mkOutcome (Ok (Some text)) (h c s).2 [c]
    | _ => mkOutcome (Ok None) (h c s).2 [c]
    end.
Proof.
  simp. next_call h; [| done].
  destruct r as [text |]; [| done].
  destruct (truthy (PyStr text) && copy_to_clip); simp; [| done].
  unfold mbind, prog_bind. rewrite run_try_except, !run_bind.
  destruct (copy_to_clipboard_returns text s0) as [b Hb].
  unfold and_then, or_else, after. rewrite Hb.
  destruct b; simp; by rewrite !app_nil_r.
Qed.

Lemma run_delete_password (key : str) (s : S) :
  let c := keyring_get_password SERVICE_NAME key in
  let d := keyring_delete_password SERVICE_NAME key in
  run h (delete_password key) s =
    match (h c s).1 with
    | Ok (Some _) =>
        mkOutcome (Ok (returned (h d (h c s).2).1)) (h d (h c s).2).2 [c; d]
    | _ => mkOutcome (Ok false) (h c s).2 [c]
    end.
Proof.
  simp. next_call h; [| done].
  destruct r as [text |]; simp; [| done].
  by next_call h.
Qed.

End Facade.

Lemma run_frame {S T : Type} (h : handler S) (store : S → T)
    `{!StoreFrame h store} {A} (p : prog A) (s : S) :
  Forall (λ c, mutates_store c = false) (trace (run h p s)) →
  store (final (run h p s)) = store s.
Proof.
  revert s. induction p as [a | e | c k IH]; intros s; cbn; [done | done |].
  intros Hall. apply Forall_cons in Hall as [Hc Hrest].
  rewrite IH by done. by apply store_frame.
Qed.

Lemma get_password_trace {S : Type} (h : handler S) key copy_to_clip s :
  Forall (λ c, mutates_store c = false)
         (trace (run h (get_password key copy_to_clip) s)).
Proof.
  rewrite run_get_password.
  destruct (h (keyring_get_password SERVICE_NAME key) s) as [[[text |] | e] s1];
    simp; try by repeat constructor.
  destruct (truthy (PyStr text) && copy_to_clip); simp;
    [| by repeat constructor].
  destruct (copy_to_clipboard_trace h text s1) as (rest & -> & Hrest).
  by repeat constructor.
Qed.

#[global] Instance macos_laws : KeyringLaws macos.
Proof.
  split.
  - intros service username password w. cbn.
    destruct (keychain_locked w) eqn:Hlock; cbn; [done |].
    rewrite Hlock. by rewrite lookup_insert_eq.
  - intros service username w. cbn.
    destruct (keychain_locked w) eqn:Hlock; cbn; [done |].
    destruct (keychain w !! (service, username)); cbn; [| done].
    rewrite Hlock. by rewrite lookup_delete_eq.
  - intros service username secret w. cbn.
    destruct (keychain_locked w) eqn:Hlock; cbn; [done |].
    rewrite Hlock. by intros [= ->].
Qed.

#[global] Instance macos_frame : StoreFrame macos keychain.
Proof.
  intros [] w; cbn; try done.
  - by destruct (keychain_locked w).
  - by destruct (_ && _).
Qed.

(** * The secret-access contract *)

Section Contract.
Context {S : Type} (h : handler S).

(** C1 (round-trip with upsert).  On a store with the assumed set/get
    semantics, whenever [set_password key value] returns [True], a
    following [get_password key] returns exactly [value], whatever the
    state before the set was, in particular when the key held another
    value. *)
Theorem set_password_then_get_password `{!KeyringLaws h}
    (key value : str) (copy_to_clip : bool) (s : S) :
  res (run h (set_password key value) s) = Ok true →
  res (run h (get_password key copy_to_clip)
         (final (run h (set_password key value) s))) = Ok (Some value).
Proof.
  rewrite run_set_password, run_get_password. cbn [res final]. intros Hset.
  assert ((h (keyring_set_password SERVICE_NAME key value) s).1 = Ok tt) as Hok.
  { destruct (h (keyring_set_password SERVICE_NAME key value) s).1 as [[] | e];
      [done | by inversion Hset]. }
  rewrite (get_after_set _ _ _ _ Hok).
  by destruct (truthy (PyStr value) && copy_to_clip).
Qed.

(** C2 (delete removes).  On a store with the assumed semantics,
    whenever [delete_password key] returns [True], an immediately
    following [get_password key] returns [None]. *)
Theorem delete_password_then_get_password `{!KeyringLaws h}
    (key : str) (copy_to_clip : bool) (s : S) :
  res (run h (delete_password key) s) = Ok true →
  res (run h (get_password key copy_to_clip)
         (final (run h (delete_password key) s))) = Ok None.
Proof.
  rewrite run_delete_password, run_get_password.
  destruct (h (keyring_get_password SERVICE_NAME key) s) as [[[text |] | e] s1];
    cbn [res final fst snd]; [| by intros [=] | by intros [=]].
  intros Hdel.
  assert ((h (keyring_delete_password SERVICE_NAME key) s1).1 = Ok tt) as Hok.
  { destruct (h (keyring_delete_password SERVICE_NAME key) s1).1 as [[] | e];
      [done | by inversion Hdel]. }
  by rewrite (get_after_delete _ _ _ Hok).
Qed.

(** C4 (exception coalescing).  Whatever the store and the clipboard
    helper do, each of the three operations returns normally; the
    returned value is [False] when the store raised during set or
    delete, and [None] when it raised during get, the same as for a key
    that does not exist. *)
Theorem facade_never_raises (key value : str) (copy_to_clip : bool) (s : S) :
  let c := keyring_get_password SERVICE_NAME key in
  res (run h (set_password key value) s)
    = Ok (returned (h (keyring_set_password SERVICE_NAME key value) s).1)
  ∧ res (run h (get_password key copy_to_clip) s)
    = Ok (match (h c s).1 with Ok found => found | Err _ => None end)
  ∧ res (run h (delete_password key) s)
    = Ok (match (h c s).1 with
          | Ok (Some _) =>
              returned (h (keyring_delete_password SERVICE_NAME key) (h c s).2).1
          | Ok None => false
          | Err _ => false
          end).
Proof.
  intros c. rewrite run_set_password, run_get_password, run_delete_password.
  fold c. split_and!; [done | |].
  - destruct (h c s).1 as [[text |] | e]; [| done | done].
    by destruct (truthy (PyStr text) && copy_to_clip).
  - by destruct (h c s).1 as [[text |] | e].
Qed.

(** C5 (clipboard decoupling).  When the store holds a value for [key],
    [get_password key True] returns that value whatever the clipboard
    helper does: started or not, failing or not. *)
Theorem get_password_returns_despite_clipboard (key text : str) (s : S) :
  (h (keyring_get_password SERVICE_NAME key) s).1 = Ok (Some text) →
  res (run h (get_password key true) s) = Ok (Some text).
Proof.
  intros Hget. rewrite run_get_password, Hget.
  by destruct (truthy (PyStr text) && true).
Qed.

End Contract.

Section Frame.
Context {S T : Type} (h : handler S) (store : S → T) `{!StoreFrame h store}.

(** C3 (delete-missing is false).  When the store has no record for
    [key], [delete_password key] returns [False] without raising; the
    only call it makes is the existence check, no deletion is
    attempted, and the store is left as it was. *)
Theorem delete_password_missing (key : str) (s : S) :
  (h (keyring_get_password SERVICE_NAME key) s).1 = Ok None →
  res (run h (delete_password key) s) = Ok false
  ∧ trace (run h (delete_password key) s)
    = [keyring_get_password SERVICE_NAME key]
  ∧ store (final (run h (delete_password key) s)) = store s.
Proof.
  intros Hget. rewrite run_delete_password, Hget. cbn [res final trace].
  split_and!; [done | done |]. by apply store_frame.
Qed.

(** C9 (retrieve is non-destructive).  For every key, every flag and
    every state, [get_password] makes no call that writes to the store
    and leaves the content of the store unchanged. *)
Theorem get_password_leaves_store (key : str) (copy_to_clip : bool) (s : S) :
  Forall (λ c, mutates_store c = false)
         (trace (run h (get_password key copy_to_clip) s))
  ∧ store (final (run h (get_password key copy_to_clip) s)) = store s.
Proof.
  split; [apply get_password_trace |].
  apply (run_frame h store), get_password_trace.
Qed.

End Frame.

Section Clipboard.
Context {S : Type} (h : handler S).

(** C8, as amended (clipboard invocation condition).  When the store
    holds a non-empty value for [key], [get_password key True] runs
    [copy_to_clipboard] on exactly that value right after the retrieval
    (so the helper is started); and [get_password] with
    [copy_to_clip=False] never starts the helper, for any key and
    state. *)
Theorem get_password_clipboard_invocation (key text : str) (s : S) :
  text ≠ [] →
  (h (keyring_get_password SERVICE_NAME key) s).1 = Ok (Some text) →
  let c := keyring_get_password SERVICE_NAME key in
  let bridge := run h (copy_to_clipboard text) (h c s).2 in
  run h (get_password key true) s
    = mkOutcome (Ok (Some text)) (final bridge) (c :: trace bridge)
  ∧ existsb is_pbcopy (trace (run h (get_password key true) s)) = true
  ∧ ∀ key' s', existsb is_pbcopy (trace (run h (get_password key' false) s')) = false.
Proof.
  intros Hne Hget c bridge. subst c bridge.
  rewrite run_get_password, Hget.
  destruct text as [| p text']; [done |]. cbn [truthy andb].
  split_and!; [done | |].
  - cbn [trace].
    by destruct (copy_to_clipboard_trace h (p :: text')
                  (h (keyring_get_password SERVICE_NAME key) s).2)
      as (rest & -> & _).
  - intros key' s'. rewrite run_get_password.
    destruct (h (keyring_get_password SERVICE_NAME key') s').1 as [[found |] | e];
      [| done | done].
    by rewrite andb_false_r.
Qed.

(** C10 (empty-string values count as present for deletion).  On a
    store with the assumed semantics that holds the empty string for
    [key], [delete_password key] returns [True] after asking the store
    to delete the record, and the record is gone afterwards; whereas
    [get_password key True] on the same state returns the empty string
    without starting the clipboard helper. *)
Theorem delete_password_empty_secret `{!KeyringLaws h} (key : str) (s : S) :
  (h (keyring_get_password SERVICE_NAME key) s).1 = Ok (Some []) →
  let c := keyring_get_password SERVICE_NAME key in
  let d := keyring_delete_password SERVICE_NAME key in
  res (run h (delete_password key) s) = Ok true
  ∧ trace (run h (delete_password key) s) = [c; d]
  ∧ final (run h (delete_password key) s) = (h d (h c s).2).2
  ∧ res (run h (get_password key false) (final (run h (delete_password key) s)))
    = Ok None
  ∧ run h (get_password key true) s = mkOutcome (Ok (Some [])) (h c s).2 [c].
Proof.
  intros Hget c d. subst c d.
  pose proof (delete_after_get _ _ _ _ Hget) as Hdel. cbn zeta in Hdel.
  rewrite run_delete_password, Hget, Hdel. cbn [res final trace returned].
  split_and!; try done.
  - rewrite run_get_password. by rewrite (get_after_delete _ _ _ Hdel).
  - rewrite run_get_password. by rewrite Hget.
Qed.

End Clipboard.

Section Decorator.
Context {S : Type} (h : handler S).

(** C6 (decorator precedence).  A call that supplies a non-empty value
    for the configured parameter among its keyword arguments is the
    call of the inner function with the caller's arguments, nothing
    added and no lookup made; a call that supplies no such value (the
    keyword is missing, or it is given as [None], the empty string or
    another empty value), when the store holds a secret for the
    configured key, is the lookup followed by the call of the inner
    function with the secret injected under the parameter name, in
    place of whatever empty value was given. *)
Theorem require_password_precedence (key param_name : str) (func : pyfunc)
    (args : list pyval) (given ungiven : gmap str pyval)
    (v : pyval) (secret : str) (s : S) :
  given !! param_name = Some v →
  truthy v = true →
  from_option truthy false (ungiven !! param_name) = false →
  (h (keyring_get_password SERVICE_NAME key) s).1 = Ok (Some secret) →
  let c := keyring_get_password SERVICE_NAME key in
  require_password key param_name func args given = func args given
  ∧ run h (require_password key param_name func args ungiven) s
    = after c (run h (func args (<[param_name := PyStr secret]> ungiven)) (h c s).2).
Proof.
  intros Hgiven Hv Hungiven Hget c. subst c. unfold require_password.
  rewrite Hgiven. cbn [supplied]. rewrite Hv. split; [done |].
  assert (supplied (ungiven !! param_name) = false) as ->.
  { by destruct (ungiven !! param_name). }
  unfold mbind, prog_bind. rewrite run_bind, run_get_password.
  rewrite Hget, andb_false_r. unfold and_then, after. cbn [res final trace app].
  by destruct (run h _ _).
Qed.

(** C7 (decorator missing-secret failure).  When the store holds no
    secret for the configured key, a call that does not supply the
    parameter raises an error whose message contains the key; the only
    external call made is the lookup, whatever the inner function is:
    its body is not run. *)
Theorem require_password_missing_secret (key param_name : str) (func : pyfunc)
    (args : list pyval) (kwargs : gmap str pyval) (s : S) :
  kwargs !! param_name = None →
  (h (keyring_get_password SERVICE_NAME key) s).1 = Ok None →
  let c := keyring_get_password SERVICE_NAME key in
  let o := run h (require_password key param_name func args kwargs) s in
  (∃ msg, res o = Err (ValueError msg) ∧ contains key msg)
  ∧ trace o = [c]
  ∧ final o = (h c s).2.
Proof.
  intros Hkw Hget c o. subst o c. unfold require_password.
  rewrite Hkw. cbn [supplied].
  unfold mbind, prog_bind. rewrite run_bind, run_get_password.
  rewrite Hget. unfold and_then. cbn. split_and!; [| done | done].
  exists (not_found_message key). split; [done |].
  by exists (lit "Password not found for key '"), (lit "'").
Qed.

End Decorator.

(** * The contract on concrete hosts *)

Example scenario_on_fresh_host :
  res (run macos scenario fresh)
  = Ok (true, Some (lit "asd123"), true, None, false)
  ∧ final (run macos scenario fresh) = fresh.
Proof. by vm_compute. Qed.

(** On a locked keychain every request raises, and the facade answers
    [False], [None] and [False]. *)
Example facade_on_locked_keychain :
  res (run macos (set_password testkey (lit "pw")) (host_locked (lit "old"))) = Ok false
  ∧ res (run macos (get_password testkey true) (host_locked (lit "old"))) = Ok None
  ∧ res (run macos (delete_password testkey) (host_locked (lit "old"))) = Ok false
  ∧ final (run macos (delete_password testkey) (host_locked (lit "old")))
    = host_locked (lit "old").
Proof. by vm_compute. Qed.

Example get_password_fills_clipboard :
  clipboard (final (run macos (get_password testkey true) (host_with (lit "pw"))))
  = Some ["p"%byte; "w"%byte].
Proof. reflexivity. Qed.

(** A lone surrogate cannot be encoded: the helper is started but the
    copy fails, and the clipboard keeps its content. *)
Example copy_to_clipboard_surrogate :
  run macos (copy_to_clipboard [0xD800]) fresh
  = mkOutcome (Ok false) fresh [pbcopy_call].
Proof. reflexivity. Qed.

Example utf8_encode_euro : utf8_encode [0x20AC] = Some [xe2; x82; xac]%byte.
Proof. reflexivity. Qed.

Lemma set_password_then_get_password_witness :
  KeyringLaws macos
  ∧ res (run macos (set_password testkey (lit "new_pass")) (host_with (lit "old_pass")))
    = Ok true
  ∧ res (run macos (get_password testkey false)
           (final (run macos (set_password testkey (lit "new_pass"))
                     (host_with (lit "old_pass")))))
    = Ok (Some (lit "new_pass")).
Proof.
  split; [exact macos_laws |]. split; [reflexivity |].
  apply (set_password_then_get_password macos). reflexivity.
Defined.

Lemma delete_password_then_get_password_witness :
  KeyringLaws macos
  ∧ res (run macos (delete_password testkey) (host_with (lit "testpass123"))) = Ok true
  ∧ res (run macos (get_password testkey false)
           (final (run macos (delete_password testkey) (host_with (lit "testpass123")))))
    = Ok None.
Proof.
  split; [exact macos_laws |]. split; [reflexivity |].
  apply (delete_password_then_get_password macos). reflexivity.
Defined.

Lemma delete_password_missing_witness :
  StoreFrame macos keychain
  ∧ (macos (keyring_get_password SERVICE_NAME (lit "nonexistent")) fresh).1 = Ok None
  ∧ res (run macos (delete_password (lit "nonexistent")) fresh) = Ok false
  ∧ trace (run macos (delete_password (lit "nonexistent")) fresh)
    = [keyring_get_password SERVICE_NAME (lit "nonexistent")]
  ∧ keychain (final (run macos (delete_password (lit "nonexistent")) fresh))
    = keychain fresh.
Proof.
  split; [exact macos_frame |]. split; [reflexivity |].
  apply (delete_password_missing macos keychain). reflexivity.
Defined.

Lemma get_password_returns_despite_clipboard_witness :
  (macos (keyring_get_password SERVICE_NAME testkey)
     (host_without_pbcopy (lit "testpass123"))).1
  = Ok (Some (lit "testpass123"))
  ∧ res (run macos (copy_to_clipboard (lit "testpass123"))
           (host_without_pbcopy (lit "testpass123")))
    = Ok false
  ∧ res (run macos (get_password testkey true)
           (host_without_pbcopy (lit "testpass123")))
    = Ok (Some (lit "testpass123")).
Proof.
  split; [reflexivity |]. split; [reflexivity |].
  apply (get_password_returns_despite_clipboard macos). reflexivity.
Defined.

Lemma get_password_leaves_store_witness :
  StoreFrame macos keychain
  ∧ Forall (λ c, mutates_store c = false)
           (trace (run macos (get_password testkey true) (host_with (lit "pw"))))
  ∧ keychain (final (run macos (get_password testkey true) (host_with (lit "pw"))))
    = keychain (host_with (lit "pw")).
Proof.
  split; [exact macos_frame |].
  apply (get_password_leaves_store macos keychain).
Defined.

(** C8, as stated, fails: a key whose stored value is the empty string is
    found, and yet [get_password key True] does not start the clipboard
    helper, because [password and copy_to_clip] is false for [""]. *)
Lemma get_password_empty_secret_skips_clipboard :
  ¬ (∀ (S : Type) (h : handler S) (key text : str) (s : S),
       (h (keyring_get_password SERVICE_NAME key) s).1 = Ok (Some text) →
       existsb is_pbcopy (trace (run h (get_password key true) s)) = true).
Proof.
  intros H. specialize (H World macos testkey [] (host_with []) eq_refl).
  vm_compute in H. discriminate H.
Qed.

Lemma get_password_clipboard_invocation_witness :
  lit "pw" ≠ []
  ∧ run macos (get_password testkey true) (host_with (lit "pw"))
    = mkOutcome (Ok (Some (lit "pw")))
        (final (run macos (copy_to_clipboard (lit "pw")) (host_with (lit "pw"))))
        (keyring_get_password SERVICE_NAME testkey
           :: trace (run macos (copy_to_clipboard (lit "pw")) (host_with (lit "pw"))))
  ∧ existsb is_pbcopy
      (trace (run macos (get_password testkey true) (host_with (lit "pw")))) = true.
Proof.
  split; [discriminate |].
  destruct (get_password_clipboard_invocation macos testkey (lit "pw")
              (host_with (lit "pw"))) as (Hrun & Hstarted & _);
    [discriminate | reflexivity |].
  split; [exact Hrun | exact Hstarted].
Defined.

Lemma delete_password_empty_secret_witness :
  KeyringLaws macos
  ∧ (macos (keyring_get_password SERVICE_NAME testkey) (host_with [])).1 = Ok (Some [])
  ∧ res (run macos (delete_password testkey) (host_with [])) = Ok true
  ∧ keychain (final (run macos (delete_password testkey) (host_with []))) = ∅.
Proof.
  split; [exact macos_laws |]. split; [reflexivity |].
  destruct (delete_password_empty_secret macos testkey (host_with []))
    as (Hres & _ & Hfinal & _); [reflexivity |].
  split; [exact Hres |]. rewrite Hfinal. reflexivity.
Defined.

Lemma require_password_precedence_witness :
  let given : gmap str pyval := {[ lit "password" := PyStr (lit "manual_pass") ]} in
  let empty : gmap str pyval := {[ lit "password" := PyStr [] ]} in
  let none : gmap str pyval := {[ lit "password" := PyNone ]} in
  given !! lit "password" = Some (PyStr (lit "manual_pass"))
  ∧ from_option truthy false (empty !! lit "password") = false
  ∧ from_option truthy false (none !! lit "password") = false
  ∧ from_option truthy false ((∅ : gmap str pyval) !! lit "password") = false
  ∧ res (run macos (require_password testkey (lit "password") test_function [] given)
           (host_with (lit "stored_pass")))
    = Ok (PyStr (lit "manual_pass"))
  ∧ res (run macos (require_password testkey (lit "password") test_function [] empty)
           (host_with (lit "stored_pass")))
    = Ok (PyStr (lit "stored_pass"))
  ∧ res (run macos (require_password testkey (lit "password") test_function [] none)
           (host_with (lit "stored_pass")))
    = Ok (PyStr (lit "stored_pass"))
  ∧ res (run macos (require_password testkey (lit "password") test_function [] ∅)
           (host_with (lit "stored_pass")))
    = Ok (PyStr (lit "stored_pass")).
Proof.
  intros given empty none.
  split; [reflexivity |]. split; [reflexivity |].
  split; [reflexivity |]. split; [reflexivity |].
  destruct (require_password_precedence macos testkey (lit "password") test_function
              [] given empty (PyStr (lit "manual_pass")) (lit "stored_pass")
              (host_with (lit "stored_pass")))
    as [Hgiven Hempty]; [reflexivity | reflexivity | reflexivity | reflexivity |].
  destruct (require_password_precedence macos testkey (lit "password") test_function
              [] given none (PyStr (lit "manual_pass")) (lit "stored_pass")
              (host_with (lit "stored_pass")))
    as [_ Hnone]; [reflexivity | reflexivity | reflexivity | reflexivity |].
  destruct (require_password_precedence macos testkey (lit "password") test_function
              [] given ∅ (PyStr (lit "manual_pass")) (lit "stored_pass")
              (host_with (lit "stored_pass")))
    as [_ Habsent]; [reflexivity | reflexivity | reflexivity | reflexivity |].
  split; [rewrite Hgiven; reflexivity |].
  split; [rewrite Hempty; reflexivity |].
  split; [rewrite Hnone; reflexivity |].
  rewrite Habsent. reflexivity.
Defined.

Lemma require_password_missing_secret_witness :
  (∅ : gmap str pyval) !! lit "password" = None
  ∧ (macos (keyring_get_password SERVICE_NAME (lit "nonexistent")) fresh).1 = Ok None
  ∧ (∃ msg,
       res (run macos
              (require_password (lit "nonexistent") (lit "password") test_function [] ∅)
              fresh)
       = Err (ValueError msg)
       ∧ contains (lit "nonexistent") msg).
Proof.
  split; [reflexivity |]. split; [reflexivity |].
  apply (require_password_missing_secret macos (lit "nonexistent") (lit "password")
           test_function [] ∅ fresh); reflexivity.
Defined.

(** * Further properties of [core.py] *)

Lemma utf8_encode_point_surrogate (c : N) :
  surrogate c = true → utf8_encode_point c = None.
Proof.
  unfold surrogate, utf8_encode_point. intros Hc.
  apply andb_true_iff in Hc as Hc'. destruct Hc' as [Hlo Hhi].
  apply N.leb_le in Hlo.
  destruct (N.ltb_spec c 0x80) as [? | _]; [lia |].
  destruct (N.ltb_spec c 0x800) as [? | _]; [lia |].
  by rewrite Hc.
Qed.

Lemma utf8_encode_surrogate (text : str) (c : N) :
  c ∈ text → surrogate c = true → utf8_encode text = None.
Proof.
  intros Hin Hc. induction Hin as [c rest | c c' rest Hin IH]; cbn.
  - by rewrite utf8_encode_point_surrogate.
  - rewrite IH by done. by destruct (utf8_encode_point c').
Qed.

Section Core.
Context {S : Type} (h : handler S).

(** X1.  [copy_to_clipboard] never raises, and it returns [True] exactly
    when the helper could be started, the text could be encoded and
    [communicate] returned: nothing about the clipboard itself is
    checked. *)
Theorem copy_to_clipboard_result (text : str) (s : S) :
  ∃ b, res (run h (copy_to_clipboard text) s) = Ok b
       ∧ (b = true ↔
          ∃ process data,
            (h pbcopy_call s).1 = Ok process
            ∧ utf8_encode text = Some data
            ∧ returned (h (Popen_communicate process data) (h pbcopy_call s).2).1
              = true).
Proof.
  rewrite run_copy_to_clipboard. unfold str_encode_utf8.
  destruct (h pbcopy_call s).1 as [process | e];
    [| exists false; split; [done |]; split; [done | by intros (? & ? & ? & _)]].
  destruct (utf8_encode text) as [data |];
    [| exists false; split; [done |]; split; [done | by intros (? & ? & _ & ? & _)]].
  eexists. split; [done |]. split.
  - intros Hb. by exists process, data.
  - by intros (? & ? & [= <-] & [= <-] & Hret).
Qed.

(** X2.  The only external calls of [copy_to_clipboard] are the start of
    [pbcopy] and at most a [communicate] whose input is the UTF-8
    encoding of the text: the store is never touched, and a text that
    cannot be encoded is never sent. *)
Theorem copy_to_clipboard_feeds_encoding (text : str) (s : S) (c : call) :
  c ∈ trace (run h (copy_to_clipboard text) s) →
  c = pbcopy_call
  ∨ ∃ process data, c = Popen_communicate process data
                    ∧ utf8_encode text = Some data.
Proof.
  rewrite run_copy_to_clipboard. unfold str_encode_utf8.
  destruct (h pbcopy_call s).1 as [process | e];
    [| cbn; intros ->%list_elem_of_singleton; by left].
  destruct (utf8_encode text) as [data |];
    [| cbn; intros ->%list_elem_of_singleton; by left].
  cbn. intros [-> | ->%list_elem_of_singleton]%elem_of_cons; [by left |].
  right. by exists process, data.
Qed.

(** X3.  A text that holds a surrogate code point is never copied: on
    every host [copy_to_clipboard] starts the helper, sends it nothing
    and returns [False]. *)
Theorem copy_to_clipboard_surrogate_fails (text : str) (c : N) (s : S) :
  c ∈ text →
  surrogate c = true →
  res (run h (copy_to_clipboard text) s) = Ok false
  ∧ trace (run h (copy_to_clipboard text) s) = [pbcopy_call].
Proof.
  intros Hin Hc. rewrite run_copy_to_clipboard. unfold str_encode_utf8.
  rewrite (utf8_encode_surrogate text c Hin Hc).
  by destruct (h pbcopy_call s).1.
Qed.

(** X4.  The [copy_to_clip] flag never changes what [get_password]
    returns, found or not, whatever the store and the clipboard helper
    do. *)
Theorem get_password_result_ignores_flag (key : str) (s : S) :
  res (run h (get_password key true) s) = res (run h (get_password key false) s).
Proof.
  rewrite !run_get_password.
  destruct (h (keyring_get_password SERVICE_NAME key) s).1 as [[text |] | e];
    [| done | done].
  rewrite andb_false_r. by destruct (truthy (PyStr text) && true).
Qed.

(** X5.  The facade stays within one record: every [keyring] call that
    [set_password], [get_password] or [delete_password] makes is on the
    service [kcpwd] and on the caller's key; [set_password] and
    [delete_password] make no other call, [get_password] only calls of
    [subprocess] besides. *)
Theorem facade_stays_within_record (key value : str) (copy_to_clip : bool) (s : S) :
  Forall (λ c, keyring_on key c = true)
         (trace (run h (set_password key value) s))
  ∧ Forall (λ c, keyring_on key c = true)
           (trace (run h (delete_password key) s))
  ∧ Forall (λ c, keyring_on key c = true ∨ subprocess_call c = true)
           (trace (run h (get_password key copy_to_clip) s)).
Proof.
  assert (keyring_on key (keyring_get_password SERVICE_NAME key) = true) as Hget.
  { by apply bool_decide_eq_true. }
  assert (keyring_on key (keyring_delete_password SERVICE_NAME key) = true) as Hdel.
  { by apply bool_decide_eq_true. }
  assert (keyring_on key (keyring_set_password SERVICE_NAME key value) = true) as Hset.
  { by apply bool_decide_eq_true. }
  assert (Forall (λ c, keyring_on key c = true ∨ subprocess_call c = true)
                 [keyring_get_password SERVICE_NAME key]) as Hone.
  { constructor; [by left | constructor]. }
  rewrite run_set_password, run_delete_password, run_get_password.
  split_and!.
  - by repeat constructor.
  - destruct (h (keyring_get_password SERVICE_NAME key) s).1 as [[text |] | e];
      by repeat constructor.
  - destruct (h (keyring_get_password SERVICE_NAME key) s).1 as [[text |] | e];
      [| done | done].
    destruct (truthy (PyStr text) && copy_to_clip); [| done].
    cbn [trace]. constructor; [by left |].
    apply Forall_forall. intros c Hc. right.
    by destruct (copy_to_clipboard_feeds_encoding text _ c Hc)
      as [-> | (process & data & -> & _)].
Qed.

(** X6.  On a store with the assumed semantics, once [delete_password]
    has returned [True] a second [delete_password] of the same key
    returns [False] and asks for no deletion. *)
Theorem delete_password_twice `{!KeyringLaws h} (key : str) (s : S) :
  res (run h (delete_password key) s) = Ok true →
  res (run h (delete_password key) (final (run h (delete_password key) s)))
    = Ok false
  ∧ trace (run h (delete_password key) (final (run h (delete_password key) s)))
    = [keyring_get_password SERVICE_NAME key].
Proof.
  rewrite (run_delete_password h key s).
  destruct (h (keyring_get_password SERVICE_NAME key) s) as [[[text |] | e] s1];
    cbn [res final fst snd]; [| by intros [=] | by intros [=]].
  intros Hdel.
  assert ((h (keyring_delete_password SERVICE_NAME key) s1).1 = Ok tt) as Hok.
  { destruct (h (keyring_delete_password SERVICE_NAME key) s1).1 as [[] | e];
      [done | by inversion Hdel]. }
  rewrite run_delete_password. by rewrite (get_after_delete _ _ _ Hok).
Qed.

(** X7.  On a store with the assumed semantics, whatever [set_password]
    has stored with result [True] (the empty string as well),
    [delete_password] then deletes with result [True], and
    [get_password] finds nothing afterwards. *)
Theorem set_password_then_delete_password `{!KeyringLaws h}
    (key value : str) (s : S) :
  res (run h (set_password key value) s) = Ok true →
  let s1 := final (run h (set_password key value) s) in
  res (run h (delete_password key) s1) = Ok true
  ∧ res (run h (get_password key false) (final (run h (delete_password key) s1)))
    = Ok None.
Proof.
  rewrite run_set_password. cbn [res final]. intros Hset.
  assert ((h (keyring_set_password SERVICE_NAME key value) s).1 = Ok tt) as Hok.
  { destruct (h (keyring_set_password SERVICE_NAME key value) s).1 as [[] | e];
      [done | by inversion Hset]. }
  pose proof (get_after_set _ _ _ _ Hok) as Hget. cbn zeta in Hget.
  pose proof (delete_after_get _ _ _ _ Hget) as Hdel. cbn zeta in Hdel.
  cbn zeta. rewrite run_delete_password, Hget, Hdel. cbn [res final returned].
  split; [done |].
  rewrite run_get_password. by rewrite (get_after_delete _ _ _ Hdel).
Qed.

End Core.

(** * Properties of [cli.py] *)

Section Cli.
Context {S : Type} (h : handler S).

(** X8.  [kcpwd set] returns normally whatever the store does, after one
    call to the store and one line of output: the confirmation on
    standard output when the store accepted the secret, an error line on
    standard error when it raised.  The line shows the key and never the
    password. *)
Theorem cli_set_report (key password : str) (s : S) :
  let c := keyring_set_password SERVICE_NAME key password in
  res (run h (cli_set key password) s)
    = Ok [if returned (h c s).1
          then mkEcho (stored_message key) false
          else mkEcho (lit "Error storing password") true]
  ∧ trace (run h (cli_set key password) s) = [c].
Proof.
  intros c. unfold cli_set, mbind, prog_bind.
  rewrite run_bind, run_set_password. fold c. unfold and_then.
  cbn [res final trace]. by destruct (returned (h c s).1).
Qed.

(** X9.  [kcpwd get] returns normally whatever the store and the
    clipboard helper do, with one line of output: it announces the copy
    on standard output whenever the store returned a value, whether or
    not anything reached the clipboard, and prints the not-found line on
    standard error both when the key is missing and when the store
    raised.  Its external calls are those of [get_password key True]. *)
Theorem cli_get_report (key : str) (s : S) :
  res (run h (cli_get key) s)
    = Ok [match (h (keyring_get_password SERVICE_NAME key) s).1 with
          | Ok (Some _) => mkEcho (copied_message key) false
          | _ => mkEcho (no_password_message key) true
          end]
  ∧ trace (run h (cli_get key) s) = trace (run h (get_password key true) s).
Proof.
  unfold cli_get, mbind, prog_bind. rewrite run_bind, run_get_password.
  unfold and_then.
  destruct (h (keyring_get_password SERVICE_NAME key) s).1 as [[text |] | e];
    cbn [res final trace]; try by rewrite app_nil_r.
  destruct (truthy (PyStr text) && true); cbn [res final trace];
    by rewrite app_nil_r.
Qed.

(** X10.  The body of [kcpwd delete] returns normally whatever the store
    does, with one line of output: the confirmation on standard output
    exactly when the record was found and its deletion returned, and the
    not-found line on standard error otherwise, that is for a missing
    key and for a store that raised alike. *)
Theorem cli_delete_report (key : str) (s : S) :
  let c := keyring_get_password SERVICE_NAME key in
  let d := keyring_delete_password SERVICE_NAME key in
  res (run h (cli_delete key) s)
    = Ok [match (h c s).1 with
          | Ok (Some _) =>
              if returned (h d (h c s).2).1
              then mkEcho (deleted_message key) false
              else mkEcho (no_password_message key) true
          | _ => mkEcho (no_password_message key) true
          end]
  ∧ trace (run h (cli_delete key) s) = trace (run h (delete_password key) s).
Proof.
  intros c d. unfold cli_delete, mbind, prog_bind.
  rewrite run_bind, run_delete_password. fold c d. unfold and_then.
  destruct (h c s).1 as [[text |] | e]; cbn [res final trace]; try done.
  by destruct (returned (h d (h c s).2).1).
Qed.

End Cli.

(** * The further properties on concrete hosts *)

(** [kcpwd get] announces a copy that did not happen: no helper on the
    host, or an empty secret. *)
Example cli_get_announces_missing_copy :
  res (run macos (cli_get testkey) (host_without_pbcopy (lit "pw")))
  = Ok [mkEcho (copied_message testkey) false]
  ∧ clipboard (final (run macos (cli_get testkey) (host_without_pbcopy (lit "pw"))))
    = None
  ∧ res (run macos (cli_get testkey) (host_with []))
    = Ok [mkEcho (copied_message testkey) false]
  ∧ clipboard (final (run macos (cli_get testkey) (host_with []))) = None.
Proof. by vm_compute. Qed.

(** On a locked keychain the record is there, and [kcpwd get] and
    [kcpwd delete] say that it is not. *)
Example cli_on_locked_keychain :
  res (run macos (cli_get testkey) (host_locked (lit "pw")))
  = Ok [mkEcho (no_password_message testkey) true]
  ∧ res (run macos (cli_delete testkey) (host_locked (lit "pw")))
    = Ok [mkEcho (no_password_message testkey) true]
  ∧ res (run macos (cli_set testkey (lit "new")) (host_locked (lit "pw")))
    = Ok [mkEcho (lit "Error storing password") true].
Proof. by vm_compute. Qed.

Lemma copy_to_clipboard_feeds_encoding_witness :
  Popen_communicate 1 ["p"%byte; "w"%byte]
    ∈ trace (run macos (copy_to_clipboard (lit "pw")) fresh)
  ∧ (Popen_communicate 1 ["p"%byte; "w"%byte] = pbcopy_call
     ∨ ∃ process data,
         Popen_communicate 1 ["p"%byte; "w"%byte] = Popen_communicate process data
         ∧ utf8_encode (lit "pw") = Some data).
Proof.
  assert (Popen_communicate 1 ["p"%byte; "w"%byte]
            ∈ trace (run macos (copy_to_clipboard (lit "pw")) fresh)) as Hin.
  { apply list_elem_of_In. right. left. reflexivity. }
  split; [exact Hin |].
  exact (copy_to_clipboard_feeds_encoding macos (lit "pw") fresh _ Hin).
Defined.

Lemma copy_to_clipboard_surrogate_fails_witness :
  0xDC80 ∈ (lit "pw" ++ [0xDC80])
  ∧ surrogate 0xDC80 = true
  ∧ res (run macos (copy_to_clipboard (lit "pw" ++ [0xDC80])) fresh) = Ok false
  ∧ trace (run macos (copy_to_clipboard (lit "pw" ++ [0xDC80])) fresh) = [pbcopy_call].
Proof.
  assert (0xDC80 ∈ (lit "pw" ++ [0xDC80])) as Hin.
  { apply list_elem_of_In. right. right. left. reflexivity. }
  split; [exact Hin |]. split; [reflexivity |].
  exact (copy_to_clipboard_surrogate_fails macos _ _ fresh Hin eq_refl).
Defined.

Lemma delete_password_twice_witness :
  KeyringLaws macos
  ∧ res (run macos (delete_password testkey) (host_with (lit "pw"))) = Ok true
  ∧ res (run macos (delete_password testkey)
           (final (run macos (delete_password testkey) (host_with (lit "pw")))))
    = Ok false
  ∧ trace (run macos (delete_password testkey)
             (final (run macos (delete_password testkey) (host_with (lit "pw")))))
    = [keyring_get_password SERVICE_NAME testkey].
Proof.
  split; [exact macos_laws |]. split; [reflexivity |].
  apply (delete_password_twice macos). reflexivity.
Defined.

Lemma set_password_then_delete_password_witness :
  KeyringLaws macos
  ∧ res (run macos (set_password testkey []) fresh) = Ok true
  ∧ res (run macos (delete_password testkey)
           (final (run macos (set_password testkey []) fresh)))
    = Ok true
  ∧ res (run macos (get_password testkey false)
           (final (run macos (delete_password testkey)
                     (final (run macos (set_password testkey []) fresh)))))
    = Ok None.
Proof.
  split; [exact macos_laws |]. split; [reflexivity |].
  apply (set_password_then_delete_password macos). reflexivity.
Defined.
